(** * The connect proxy: [web/src/app/api/connect/route.ts]

    A shallow embedding of the route handler [POST] and the properties
    its specification states about it.

    The handler is an [async] function whose body is one [try]/[catch].
    It reads two values of [process.env], performs one [fetch], reads the
    body of the answer and builds a [NextResponse].  The embedding keeps
    this shape: a small monad carries the ambient context (environment
    variables and the upstream service), the trace of observable effects
    (outbound calls and console lines) and JavaScript exceptions. *)

From Stdlib Require Import String Ascii List ZArith Bool Lia.
From Stdlib Require Import DecimalString.
From Stdlib Require Import Floats.PrimFloat.
Import ListNotations.
Local Open Scope string_scope.
#[local] Set Warnings "-register-all".

(** ** JavaScript data *)

(** The values [JSON.parse] can produce.  A number is an IEEE-754 double.
    An object is its list of own properties in insertion order. *)
Inductive Json : Type :=
| JNull
| JBool (b : bool)
| JNum (n : float)
| JStr (s : string)
| JArr (items : list Json)
| JObj (props : list (string * Json)).

(** A JavaScript expression of type [T | undefined] is an [option T],
    [None] standing for [undefined]. *)
Definition undefined {A : Type} : option A := None.

(** A thrown value.  Every value thrown in the handler, and every
    rejection of the platform functions it awaits, is an [Error] object. *)
Record JsError : Type := mkJsError { err_name : string; err_message : string }.

Definition Error (message : string) : JsError := mkJsError "Error" message.
Definition TypeError (message : string) : JsError := mkJsError "TypeError" message.
Definition SyntaxError (message : string) : JsError := mkJsError "SyntaxError" message.

(** How an evaluation (or an awaited promise) ends. *)
Inductive Completion (A : Type) : Type :=
| Normal (a : A)
| Throw (e : JsError).
Arguments Normal {A} a.
Arguments Throw {A} e.

(** [!v] for [v : string | undefined]: only [undefined] and the empty
    string are falsy. *)
Definition truthy (v : option string) : bool :=
  match v with
  | None => false
  | Some s => negb (s =? "")
  end.

(** [`${v}`] for [v : string | undefined]. *)
Definition template (v : option string) : string :=
  match v with
  | None => "undefined"
  | Some s => s
  end.

(** [`${n}`] for an integral number. *)
Definition template_int (n : Z) : string := NilZero.string_of_int (Z.to_int n).

(** The own property [name] of an object, if it has one.  The keys of a
    JavaScript object are distinct, so at most one entry matches. *)
Fixpoint own_property (name : string) (props : list (string * Json)) : option Json :=
  match props with
  | [] => undefined
  | (k, v) :: rest => if k =? name then Some v else own_property name rest
  end.

(** [data.name] for a value [data] that came out of [JSON.parse], and a
    [name] that no built-in prototype defines (the handler reads
    [dailyRoom] and [dailyToken]).  Reading a property of [null] throws;
    primitives and arrays answer [undefined]. *)
Definition get_property (data : Json) (name : string) : Completion (option Json) :=
  match data with
  | JNull =>
      Throw (TypeError ("Cannot read properties of null (reading '" ++ name ++ "')"))
  | JObj props => Normal (own_property name props)
  | _ => Normal undefined
  end.

(** [JSON.stringify(v)] for a value made of JSON data.  A JSON text is
    represented by the value it denotes, so serialising changes a value
    only where the text cannot carry it: a number that is not finite is
    written [null], and negative zero is written [0]. *)
Fixpoint JSON_stringify (v : Json) : Json :=
  match v with
  | JNum n =>
      if is_finite n then (if is_zero n then JNum zero else JNum n) else JNull
  | JArr items => JArr (map JSON_stringify items)
  | JObj props => JObj (map (fun kv => (fst kv, JSON_stringify (snd kv))) props)
  | _ => v
  end.

(** What [JSON.stringify] writes for the properties of an object literal:
    a property whose value is [undefined] is left out. *)
Fixpoint serialized (props : list (string * option Json)) : list (string * Json) :=
  match props with
  | [] => []
  | (k, Some v) :: rest => (k, JSON_stringify v) :: serialized rest
  | (_, None) :: rest => serialized rest
  end.

(** ** The platform: [fetch], [Response], [NextResponse], [console] *)

(** The [init] argument of [fetch]; its body is a JSON text. *)
Record RequestInit : Type := mkRequestInit {
  method : string;
  headers : list (string * string);
  body : Json
}.

(** The [Response] a [fetch] resolves with.  [text] and [json] are the
    completions of awaiting [response.text()] and [response.json()]. *)
Record Response : Type := mkResponse {
  status : Z;
  statusText : string;
  text : Completion string;
  json : Completion Json
}.

(** [response.ok]: the status is in the range 200-299. *)
Definition ok (response : Response) : bool :=
  (200 <=? status response)%Z && (status response <=? 299)%Z.

(** How awaiting [fetch(...)] ends. *)
Inductive FetchOutcome : Type :=
| Resolved (response : Response)
| Rejected (e : JsError).

(** What [NextResponse.json(value, { status })] hands to the caller: the
    status and the JSON text of [value]. *)
Record NextResponse : Type := mkNextResponse {
  res_status : Z;
  res_body : Json
}.

(** Observable effects of a run, oldest first. *)
Inductive Event : Type :=
| EvFetch (url : string) (init : RequestInit) (outcome : FetchOutcome)
| EvConsoleError (label : string) (error : JsError).

Definition World : Type := list Event.

(** What a run finds around it: [process.env] and the upstream service,
    which answers every possible call. *)
Record Ctx : Type := mkCtx {
  env : string -> option string;
  upstream : string -> RequestInit -> FetchOutcome
}.

(** ** The monad of handler code *)

Definition M (A : Type) : Type := Ctx -> World -> Completion A * World.

Definition ret {A : Type} (a : A) : M A := fun _ w => (Normal a, w).

Definition bind {A B : Type} (m : M A) (k : A -> M B) : M B :=
  fun c w =>
    match m c w with
    | (Normal a, w') => k a c w'
    | (Throw e, w') => (Throw e, w')
    end.

Declare Scope js_scope.
Delimit Scope js_scope with js.
Notation "x <- m ;; k" := (bind m (fun x => k))
  (at level 100, m at next level, right associativity) : js_scope.
Notation "m ;; k" := (bind m (fun _ => k))
  (at level 100, right associativity) : js_scope.
Local Open Scope js_scope.

Definition throw {A : Type} (e : JsError) : M A := fun _ w => (Throw e, w).

Definition try_catch {A : Type} (block : M A) (handler : JsError -> M A) : M A :=
  fun c w =>
    match block c w with
    | (Normal a, w') => (Normal a, w')
    | (Throw e, w') => handler e c w'
    end.

(** [if (b) { stmt }] *)
Definition when (b : bool) (stmt : M unit) : M unit :=
  if b then stmt else ret tt.

(** [await p] for a promise whose completion is known. *)
Definition await {A : Type} (p : Completion A) : M A := fun _ w => (p, w).

Definition process_env (name : string) : M (option string) :=
  fun c w => (Normal (env c name), w).

Definition fetch (url : string) (init : RequestInit) : M Response :=
  fun c w =>
    let outcome := upstream c url init in
    (match outcome with
     | Resolved response => Normal response
     | Rejected e => Throw e
     end, (w ++ [EvFetch url init outcome])%list).

Definition console_error (label : string) (error : JsError) : M unit :=
  fun _ w => (Normal tt, (w ++ [EvConsoleError label error])%list).

Definition NextResponse_json (props : list (string * option Json)) (st : Z)
  : M NextResponse :=
  ret (mkNextResponse st (JObj (serialized props))).

(** ** The handler *)

Definition POST : M NextResponse :=
  try_catch
    (apiKey <- process_env "PIPECAT_API_KEY" ;;
     apiUrl <- process_env "PIPECAT_API_URL" ;;
     when (negb (truthy apiKey))
       (throw (Error "PIPECAT_API_KEY environment variable is required")) ;;
     when (negb (truthy apiUrl))
       (throw (Error "PIPECAT_API_URL environment variable is required")) ;;
     response <- fetch (template apiUrl)
       {| method := "POST";
          headers := [ ("Authorization", "Bearer " ++ template apiKey);
                       ("Content-Type", "application/json") ];
          body := JSON_stringify (JObj [ ("createDailyRoom", JBool true) ]) |} ;;
     when (negb (ok response))
       (body <- await (text response) ;;
        throw (Error ("Pipecat API error: " ++ template_int (status response)
                      ++ " " ++ statusText response ++ " " ++ body))) ;;
     data <- await (json response) ;;
     dailyRoom <- await (get_property data "dailyRoom") ;;
     dailyToken <- await (get_property data "dailyToken") ;;
     NextResponse_json [ ("url", dailyRoom); ("token", dailyToken) ] 200)
    (fun error =>
       console_error "Error calling Pipecat API:" error ;;
       NextResponse_json
         [ ("error", Some (JStr "Failed to connect to Pipecat service")) ] 500).

(** ** Observations on a run *)

(** The response [POST] returns when run in context [ctx] from world [w]. *)
Definition response_of (ctx : Ctx) (w : World) : Completion NextResponse :=
  fst (POST ctx w).

(** The effects this run added to the world. *)
Definition performed (ctx : Ctx) (w : World) : World :=
  skipn (length w) (snd (POST ctx w)).

(** The outbound calls in a trace: target and [init] of every [fetch]. *)
Fixpoint calls (t : World) : list (string * RequestInit) :=
  match t with
  | [] => []
  | EvFetch url init _ :: rest => (url, init) :: calls rest
  | EvConsoleError _ _ :: rest => calls rest
  end.

(** The lines written with [console.error] in a trace. *)
Fixpoint console (t : World) : list (string * JsError) :=
  match t with
  | [] => []
  | EvFetch _ _ _ :: rest => console rest
  | EvConsoleError label error :: rest => (label, error) :: console rest
  end.

(** How the outbound calls in a trace ended. *)
Fixpoint outcomes (t : World) : list FetchOutcome :=
  match t with
  | [] => []
  | EvFetch _ _ outcome :: rest => outcome :: outcomes rest
  | EvConsoleError _ _ :: rest => outcomes rest
  end.

(** During this run the outbound call ended with [outcome]: the upstream
    service returned a response, or the call failed with a fault. *)
Definition upstream_outcome (ctx : Ctx) (w : World) (outcome : FetchOutcome) : Prop :=
  In outcome (outcomes (performed ctx w)).

(** The body of the only error response the handler builds. *)
Definition failure_response : NextResponse :=
  mkNextResponse 500 (JObj [ ("error", JStr "Failed to connect to Pipecat service") ]).

(** The label of the handler's only console line. *)
Definition log_label : string := "Error calling Pipecat API:".

(** The [init] the handler passes to [fetch] for an API key [key]. *)
Definition outbound_init (key : string) : RequestInit :=
  {| method := "POST";
     headers := [ ("Authorization", "Bearer " ++ key);
                  ("Content-Type", "application/json") ];
     body := JSON_stringify (JObj [ ("createDailyRoom", JBool true) ]) |}.

(** ** The paths through the handler *)

(** The error thrown on a response that is not [ok]: the descriptive
    [Error], unless reading the body as text failed first. *)
Definition not_ok_error (r : Response) : JsError :=
  match text r with
  | Normal b =>
      Error ("Pipecat API error: " ++ template_int (status r)
             ++ " " ++ statusText r ++ " " ++ b)
  | Throw e => e
  end.

(** [data.name] when [data] is not [null]. *)
Definition property (data : Json) (name : string) : option Json :=
  match data with
  | JObj props => own_property name props
  | _ => undefined
  end.

(** Every run of [POST] from the empty world follows one of seven paths;
    each fixes the response and the effects. *)
Inductive POST_path (ctx : Ctx) : Completion NextResponse -> World -> Prop :=
| path_no_key :
    truthy (env ctx "PIPECAT_API_KEY") = false ->
    POST_path ctx (Normal failure_response)
      [ EvConsoleError log_label
          (Error "PIPECAT_API_KEY environment variable is required") ]
| path_no_url :
    truthy (env ctx "PIPECAT_API_KEY") = true ->
    truthy (env ctx "PIPECAT_API_URL") = false ->
    POST_path ctx (Normal failure_response)
      [ EvConsoleError log_label
          (Error "PIPECAT_API_URL environment variable is required") ]
| path_rejected k u e :
    env ctx "PIPECAT_API_KEY" = Some k -> k <> "" ->
    env ctx "PIPECAT_API_URL" = Some u -> u <> "" ->
    upstream ctx u (outbound_init k) = Rejected e ->
    POST_path ctx (Normal failure_response)
      [ EvFetch u (outbound_init k) (Rejected e); EvConsoleError log_label e ]
| path_not_ok k u r :
    env ctx "PIPECAT_API_KEY" = Some k -> k <> "" ->
    env ctx "PIPECAT_API_URL" = Some u -> u <> "" ->
    upstream ctx u (outbound_init k) = Resolved r ->
    ok r = false ->
    POST_path ctx (Normal failure_response)
      [ EvFetch u (outbound_init k) (Resolved r);
        EvConsoleError log_label (not_ok_error r) ]
| path_bad_json k u r e :
    env ctx "PIPECAT_API_KEY" = Some k -> k <> "" ->
    env ctx "PIPECAT_API_URL" = Some u -> u <> "" ->
    upstream ctx u (outbound_init k) = Resolved r ->
    ok r = true ->
    json r = Throw e ->
    POST_path ctx (Normal failure_response)
      [ EvFetch u (outbound_init k) (Resolved r); EvConsoleError log_label e ]
| path_null k u r :
    env ctx "PIPECAT_API_KEY" = Some k -> k <> "" ->
    env ctx "PIPECAT_API_URL" = Some u -> u <> "" ->
    upstream ctx u (outbound_init k) = Resolved r ->
    ok r = true ->
    json r = Normal JNull ->
    POST_path ctx (Normal failure_response)
      [ EvFetch u (outbound_init k) (Resolved r);
        EvConsoleError log_label
          (TypeError "Cannot read properties of null (reading 'dailyRoom')") ]
| path_success k u r data :
    env ctx "PIPECAT_API_KEY" = Some k -> k <> "" ->
    env ctx "PIPECAT_API_URL" = Some u -> u <> "" ->
    upstream ctx u (outbound_init k) = Resolved r ->
    ok r = true ->
    json r = Normal data ->
    data <> JNull ->
    POST_path ctx
      (Normal (mkNextResponse 200
         (JObj (serialized [ ("url", property data "dailyRoom");
                             ("token", property data "dailyToken") ]))))
      [ EvFetch u (outbound_init k) (Resolved r) ].

(** The failure kinds of the specification, as they show in a run: a
    configuration value the guards reject (unset or empty), a fault thrown
    by the outbound call, an upstream status outside 200-299, and a 2xx
    answer whose body does not parse. *)
Inductive failure_path (ctx : Ctx) (w : World) : Prop :=
| missing_configuration :
    truthy (env ctx "PIPECAT_API_KEY") = false
    \/ truthy (env ctx "PIPECAT_API_URL") = false ->
    failure_path ctx w
| network_fault (e : JsError) :
    upstream_outcome ctx w (Rejected e) ->
    failure_path ctx w
| upstream_status (r : Response) :
    upstream_outcome ctx w (Resolved r) ->
    ~ (200 <= status r <= 299)%Z ->
    failure_path ctx w
| unparsable_body (r : Response) (e : JsError) :
    upstream_outcome ctx w (Resolved r) ->
    (200 <= status r <= 299)%Z ->
    json r = Throw e ->
    failure_path ctx w.

(** ** Contexts used in the examples *)

Definition env_of (key url : option string) : string -> option string :=
  fun name =>
    if name =? "PIPECAT_API_KEY" then key
    else if name =? "PIPECAT_API_URL" then url
    else None.

Definition answering (outcome : FetchOutcome) : string -> RequestInit -> FetchOutcome :=
  fun _ _ => outcome.

Definition room_body : Json :=
  JObj [ ("dailyRoom", JStr "https://example.daily.co/room");
         ("dailyToken", JStr "tok-1") ].

Definition created : Response :=
  mkResponse 200 "OK" (Normal "room") (Normal room_body).

Definition forbidden : Response :=
  mkResponse 403 "Forbidden" (Normal "forbidden")
    (Throw (SyntaxError "Unexpected token 'f'")).

Definition configured (outcome : FetchOutcome) : Ctx :=
  mkCtx (env_of (Some "secret") (Some "https://api.example/start")) (answering outcome).

Definition created_201 : Response :=
  mkResponse 201 "Created" (Normal "room") (Normal room_body).

Definition empty_object : Response :=
  mkResponse 200 "OK" (Normal "{}") (Normal (JObj [])).

Definition garbled : Response :=
  mkResponse 200 "OK" (Normal "<html>")
    (Throw (SyntaxError "Unexpected token '<'")).

Definition refused : FetchOutcome := Rejected (TypeError "fetch failed").

(** An upstream answer with a 2xx status whose body is the JSON text
    [null]. *)
Definition null_body : Response :=
  mkResponse 200 "OK" (Normal "null") (Normal JNull).

(** An API key that is set, but to the empty string. *)
Definition empty_key : Ctx :=
  mkCtx (env_of (Some "") (Some "https://api.example/start"))
        (answering (Resolved created)).

(** Neither configuration value is set. *)
Definition unconfigured : Ctx :=
  mkCtx (env_of None None) (answering (Resolved created)).

(** An API URL that is set, but to the empty string. *)
Definition empty_url : Ctx :=
  mkCtx (env_of (Some "secret") (Some "")) (answering (Resolved created)).

(** Another deployment: a different key and a different URL. *)
Definition configured_elsewhere (outcome : FetchOutcome) : Ctx :=
  mkCtx (env_of (Some "other-key") (Some "https://other.example/v2")) (answering outcome).

(** A 502 whose body cannot be read. *)
Definition unreadable : Response :=
  mkResponse 502 "Bad Gateway" (Throw (TypeError "terminated"))
    (Throw (TypeError "terminated")).

(** A 2xx answer whose body is a JSON array. *)
Definition array_body : Response :=
  mkResponse 200 "OK" (Normal "[1]") (Normal (JArr [ JStr "dailyRoom" ])).

(** A 2xx answer with more fields than the handler reads, in another
    order, and a room that is not a string. *)
Definition rich_body : Response :=
  mkResponse 200 "OK" (Normal "room")
    (Normal (JObj [ ("sessionId", JStr "s-42");
                    ("dailyToken", JStr "tok-2");
                    ("dailyRoom", JObj [ ("name", JStr "lobby") ]);
                    ("expires", JBool false) ])).

(** * Properties *)

Ltac step_POST :=
  cbv beta iota zeta delta
    [POST try_catch bind when process_env fetch await throw console_error
     NextResponse_json ret response_of performed fst snd].

Ltac break_match :=
  match goal with
  | |- context [match ?x with _ => _ end] =>
      lazymatch x with
      | context [match _ with _ => _ end] => fail
      | _ => destruct x eqn:?
      end
  end.

Lemma skipn_length_app {A : Type} (l t : list A) : skipn (length l) (l ++ t) = t.
Proof. induction l as [| a l IH]; simpl; [reflexivity | exact IH]. Qed.

(** A run reads nothing of the world it starts from: it only appends. *)
Lemma POST_frame (ctx : Ctx) (w : World) :
  POST ctx w = (fst (POST ctx []), (w ++ snd (POST ctx []))%list).
Proof.
  step_POST.
  repeat (break_match; simpl; try rewrite <- !app_assoc; simpl;
          try rewrite app_nil_r; try reflexivity; try discriminate).
Qed.

Lemma response_of_frame (ctx : Ctx) (w : World) :
  response_of ctx w = response_of ctx [].
Proof. unfold response_of. rewrite POST_frame. reflexivity. Qed.

Lemma performed_frame (ctx : Ctx) (w : World) :
  performed ctx w = snd (POST ctx []).
Proof. unfold performed. rewrite POST_frame. simpl. apply skipn_length_app. Qed.

Lemma truthy_Some (v : option string) :
  truthy v = true -> exists s, v = Some s /\ s <> "".
Proof.
  destruct v as [s |]; simpl; [| discriminate].
  intros H. exists s. split; [reflexivity |].
  intros ->. discriminate.
Qed.

Lemma truthy_of_nonempty (s : string) : s <> "" -> truthy (Some s) = true.
Proof. intros H. simpl. destruct (String.eqb_spec s ""); [contradiction | reflexivity]. Qed.

Lemma get_property_not_null (data : Json) (name : string) :
  data <> JNull -> get_property data name = Normal (property data name).
Proof. destruct data; intros H; try reflexivity. contradiction. Qed.

Ltac step := cbv beta iota zeta delta [negb fst snd app template].

Lemma POST_paths (ctx : Ctx) : POST_path ctx (fst (POST ctx [])) (snd (POST ctx [])).
Proof.
  step_POST.
  destruct (truthy (env ctx "PIPECAT_API_KEY")) eqn:Hk; step;
    [| apply path_no_key; exact Hk].
  destruct (truthy (env ctx "PIPECAT_API_URL")) eqn:Hu; step;
    [| apply path_no_url; assumption].
  destruct (truthy_Some _ Hk) as (k & Ek & Nk).
  destruct (truthy_Some _ Hu) as (u & Eu & Nu).
  rewrite Ek, Eu. step. fold (outbound_init k).
  destruct (upstream ctx u (outbound_init k)) as [r | e] eqn:Hup; step;
    [| eapply path_rejected; eassumption].
  destruct (ok r) eqn:Hok; step.
  - destruct (json r) as [data | e] eqn:Hjson; step;
      [| eapply path_bad_json; eassumption].
    destruct data; cbv beta iota delta [get_property fst snd];
      try (match type of Hjson with
           | _ = Normal ?d =>
               exact (path_success ctx k u r d Ek Nk Eu Nu Hup Hok Hjson
                        ltac:(discriminate))
           end).
    eapply path_null; eassumption.
  - fold (not_ok_error r).
    replace (match text r with Normal _ => _ | Throw _ => _ end)
      with (@Throw unit (not_ok_error r), [EvFetch u (outbound_init k) (Resolved r)]).
    + step. eapply path_not_ok; eassumption.
    + unfold not_ok_error. destruct (text r); reflexivity.
Qed.

Lemma POST_run (ctx : Ctx) (w : World) :
  POST_path ctx (response_of ctx w) (performed ctx w).
Proof. rewrite response_of_frame, performed_frame. apply POST_paths. Qed.

Lemma ok_true_iff (r : Response) : ok r = true <-> (200 <= status r <= 299)%Z.
Proof. unfold ok. rewrite andb_true_iff, !Z.leb_le. reflexivity. Qed.

Lemma ok_false_iff (r : Response) : ok r = false <-> ~ (200 <= status r <= 299)%Z.
Proof. rewrite <- ok_true_iff. destruct (ok r); split; congruence. Qed.

(** Case analysis of a run along [POST_path], with the response and the
    effects replaced by what the path fixes. *)
Ltac on_paths ctx w :=
  let P := fresh "P" in
  let res := fresh "res" in
  let tr := fresh "tr" in
  pose proof (POST_run ctx w) as P;
  unfold upstream_outcome in *;
  remember (response_of ctx w) as res;
  remember (performed ctx w) as tr;
  destruct P; simpl outcomes in *; simpl calls in *; simpl console in *.

Ltac same_call :=
  repeat match goal with
    | H : In _ [] |- _ => destruct H
    | H : In _ (_ :: _) |- _ => destruct H as [H | H]
    | H : Resolved _ = Resolved _ |- _ => injection H as H; subst
    | H : Rejected _ = Rejected _ |- _ => injection H as H; subst
    | H : Resolved _ = Rejected _ |- _ => discriminate H
    | H : Rejected _ = Resolved _ |- _ => discriminate H
    end.

(** ** Success *)

(** C1: when both configuration values are set and the upstream POST
    returns status 200 with the JSON body [{dailyRoom: U, dailyToken: T}],
    the handler returns status 200 with body exactly [{url: U, token: T}]:
    the two fields renamed, nothing else changed. *)
Theorem C1_success_renames_fields (ctx : Ctx) (w : World) (k u U T : string) (r : Response) :
  env ctx "PIPECAT_API_KEY" = Some k ->
  env ctx "PIPECAT_API_URL" = Some u ->
  upstream_outcome ctx w (Resolved r) ->
  status r = 200%Z ->
  json r = Normal (JObj [ ("dailyRoom", JStr U); ("dailyToken", JStr T) ]) ->
  response_of ctx w
  = Normal (mkNextResponse 200 (JObj [ ("url", JStr U); ("token", JStr T) ])).
Proof.
  intros Hk Hu Hout Hst Hjs.
  assert (Hok : ok r = true) by (apply ok_true_iff; lia).
  on_paths ctx w; same_call; try congruence.
  rewrite Hjs in *.
  match goal with H : Normal _ = Normal _ |- _ => injection H as <- end.
  reflexivity.
Qed.

Lemma C1_witness :
  response_of (configured (Resolved created)) []
  = Normal (mkNextResponse 200
      (JObj [ ("url", JStr "https://example.daily.co/room"); ("token", JStr "tok-1") ])).
Proof.
  apply (C1_success_renames_fields (configured (Resolved created)) []
           "secret" "https://api.example/start"
           "https://example.daily.co/room" "tok-1" created).
  - reflexivity.
  - reflexivity.
  - vm_compute. left. reflexivity.
  - reflexivity.
  - reflexivity.
Defined.

(** C6: when both configuration values are set and the upstream returns
    200 with a JSON object that lacks [dailyRoom] and/or [dailyToken], the
    handler still returns status 200; the field read from a missing
    property is [undefined] and so is absent from the body sent.  The
    fields are read as they are, without validation. *)
Theorem C6_missing_fields_pass_through
  (ctx : Ctx) (w : World) (k u : string) (r : Response) (props : list (string * Json)) :
  env ctx "PIPECAT_API_KEY" = Some k ->
  env ctx "PIPECAT_API_URL" = Some u ->
  upstream_outcome ctx w (Resolved r) ->
  status r = 200%Z ->
  json r = Normal (JObj props) ->
  own_property "dailyRoom" props = undefined \/ own_property "dailyToken" props = undefined ->
  exists fields,
    response_of ctx w = Normal (mkNextResponse 200 (JObj fields))
    /\ fields = serialized [ ("url", own_property "dailyRoom" props);
                             ("token", own_property "dailyToken" props) ]
    /\ (own_property "dailyRoom" props = undefined -> own_property "url" fields = undefined)
    /\ (own_property "dailyToken" props = undefined -> own_property "token" fields = undefined).
Proof.
  intros Hk Hu Hout Hst Hjs _.
  assert (Hok : ok r = true) by (apply ok_true_iff; lia).
  on_paths ctx w; same_call; try congruence.
  rewrite Hjs in *.
  match goal with H : Normal _ = Normal _ |- _ => injection H as <- end.
  eexists. split; [reflexivity |]. split; [reflexivity |].
  simpl property.
  destruct (own_property "dailyRoom" props), (own_property "dailyToken" props);
    split; intros E; try discriminate E; reflexivity.
Qed.

Lemma C6_witness :
  exists fields,
    response_of (configured (Resolved empty_object)) []
    = Normal (mkNextResponse 200 (JObj fields))
    /\ fields = serialized [ ("url", own_property "dailyRoom" []);
                             ("token", own_property "dailyToken" []) ]
    /\ (own_property "dailyRoom" [] = undefined -> own_property "url" fields = undefined)
    /\ (own_property "dailyToken" [] = undefined -> own_property "token" fields = undefined).
Proof.
  apply (C6_missing_fields_pass_through (configured (Resolved empty_object)) []
           "secret" "https://api.example/start" empty_object []).
  - reflexivity.
  - reflexivity.
  - vm_compute. left. reflexivity.
  - reflexivity.
  - reflexivity.
  - left. reflexivity.
Defined.

(** ** Failures *)

(** C2: when [PIPECAT_API_KEY] is unset (whatever [PIPECAT_API_URL] is),
    or [PIPECAT_API_URL] is unset, the handler returns status 500 with the
    generic error body and makes no outbound call. *)
Theorem C2_unset_configuration_fails_without_call (ctx : Ctx) (w : World) :
  env ctx "PIPECAT_API_KEY" = None \/ env ctx "PIPECAT_API_URL" = None ->
  response_of ctx w = Normal failure_response
  /\ calls (performed ctx w) = [].
Proof.
  intros H.
  on_paths ctx w; try (split; reflexivity); destruct H; congruence.
Qed.

Lemma C2_witness :
  response_of (mkCtx (env_of None (Some "https://api.example/start"))
                 (answering (Resolved created))) []
  = Normal failure_response
  /\ calls (performed (mkCtx (env_of None (Some "https://api.example/start"))
                         (answering (Resolved created))) []) = [].
Proof.
  apply (C2_unset_configuration_fails_without_call
           (mkCtx (env_of None (Some "https://api.example/start"))
              (answering (Resolved created))) []).
  left. reflexivity.
Defined.

(** C3: when both configuration values are set and the upstream call
    returns a status outside 200-299, the handler returns status 500 with
    the generic error body, and the outbound call was made exactly once. *)
Theorem C3_upstream_error_status_fails_after_one_call
  (ctx : Ctx) (w : World) (k u : string) (r : Response) :
  env ctx "PIPECAT_API_KEY" = Some k ->
  env ctx "PIPECAT_API_URL" = Some u ->
  upstream_outcome ctx w (Resolved r) ->
  ~ (200 <= status r <= 299)%Z ->
  response_of ctx w = Normal failure_response
  /\ length (calls (performed ctx w)) = 1%nat.
Proof.
  intros Hk Hu Hout Hst.
  apply ok_false_iff in Hst.
  on_paths ctx w; same_call; try congruence; split; reflexivity.
Qed.

Lemma C3_witness :
  response_of (configured (Resolved forbidden)) [] = Normal failure_response
  /\ length (calls (performed (configured (Resolved forbidden)) [])) = 1%nat.
Proof.
  apply (C3_upstream_error_status_fails_after_one_call
           (configured (Resolved forbidden)) []
           "secret" "https://api.example/start" forbidden).
  - reflexivity.
  - reflexivity.
  - vm_compute. left. reflexivity.
  - simpl. lia.
Defined.

(** C5: when both configuration values are set and the upstream returns a
    2xx status with a body that does not parse as JSON, the handler
    returns status 500 with the generic error body. *)
Theorem C5_unparsable_body_fails
  (ctx : Ctx) (w : World) (k u : string) (r : Response) (e : JsError) :
  env ctx "PIPECAT_API_KEY" = Some k ->
  env ctx "PIPECAT_API_URL" = Some u ->
  upstream_outcome ctx w (Resolved r) ->
  (200 <= status r <= 299)%Z ->
  json r = Throw e ->
  response_of ctx w = Normal failure_response.
Proof.
  intros Hk Hu Hout Hst Hjs.
  apply ok_true_iff in Hst.
  on_paths ctx w; same_call; try congruence; reflexivity.
Qed.

Lemma C5_witness :
  response_of (configured (Resolved garbled)) [] = Normal failure_response.
Proof.
  apply (C5_unparsable_body_fails (configured (Resolved garbled)) []
           "secret" "https://api.example/start" garbled
           (SyntaxError "Unexpected token '<'")).
  - reflexivity.
  - reflexivity.
  - vm_compute. left. reflexivity.
  - simpl. lia.
  - reflexivity.
Defined.

Lemma failure_path_response (ctx : Ctx) (w : World) :
  failure_path ctx w -> response_of ctx w = Normal failure_response.
Proof.
  intros [H | e H | r H Hst | r e H Hst Hjs].
  - on_paths ctx w; try reflexivity.
    exfalso.
    match goal with
    | Ek : env ctx "PIPECAT_API_KEY" = Some _,
      Eu : env ctx "PIPECAT_API_URL" = Some _ |- _ => rewrite Ek, Eu in H
    end.
    rewrite !truthy_of_nonempty in H by assumption.
    destruct H; discriminate.
  - on_paths ctx w; same_call; reflexivity.
  - apply ok_false_iff in Hst.
    on_paths ctx w; same_call; try congruence; reflexivity.
  - apply ok_true_iff in Hst.
    on_paths ctx w; same_call; try congruence; reflexivity.
Qed.

(** C4: on every failure path (missing configuration, network fault,
    non-2xx upstream status, unparsable upstream body) the handler returns
    the same response, status 500 with the generic error body; two failing
    runs answer alike whatever their failure kinds and upstream details. *)
Theorem C4_failures_are_indistinguishable (ctx1 ctx2 : Ctx) (w1 w2 : World) :
  failure_path ctx1 w1 ->
  failure_path ctx2 w2 ->
  response_of ctx1 w1 = Normal failure_response
  /\ response_of ctx2 w2 = response_of ctx1 w1.
Proof.
  intros F1 F2.
  rewrite (failure_path_response _ _ F1), (failure_path_response _ _ F2).
  split; reflexivity.
Qed.

Lemma C4_witness :
  response_of (configured refused) [] = Normal failure_response
  /\ response_of (configured (Resolved forbidden)) []
     = response_of (configured refused) [].
Proof.
  apply (C4_failures_are_indistinguishable
           (configured refused) (configured (Resolved forbidden)) [] []).
  - apply (network_fault _ _ (TypeError "fetch failed")).
    vm_compute. left. reflexivity.
  - apply (upstream_status _ _ forbidden).
    + vm_compute. left. reflexivity.
    + simpl. lia.
Defined.

(** ** The outbound request *)

(** C7, as stated, fails: with [PIPECAT_API_KEY] set to the empty string
    and [PIPECAT_API_URL] set, the guard [!apiKey] throws and the handler
    makes no outbound request at all. *)
Lemma C7_counterexample_empty_key :
  env empty_key "PIPECAT_API_KEY" = Some ""
  /\ env empty_key "PIPECAT_API_URL" = Some "https://api.example/start"
  /\ calls (performed empty_key []) = []
  /\ calls (performed empty_key [])
     <> [ ("https://api.example/start", outbound_init "") ].
Proof.
  split; [reflexivity |]. split; [reflexivity |].
  split; [reflexivity |]. vm_compute. discriminate.
Qed.

(** C7 (amended): when both configuration values are set to non-empty
    strings, the handler makes a single outbound request: a POST to the
    configured [PIPECAT_API_URL] whose headers are exactly
    [Authorization: Bearer <PIPECAT_API_KEY>] and
    [Content-Type: application/json], with the JSON body
    [{createDailyRoom: true}]. *)
Theorem C7_single_outbound_request (ctx : Ctx) (w : World) (k u : string) :
  env ctx "PIPECAT_API_KEY" = Some k ->
  env ctx "PIPECAT_API_URL" = Some u ->
  k <> "" ->
  u <> "" ->
  calls (performed ctx w)
  = [ (u, {| method := "POST";
             headers := [ ("Authorization", "Bearer " ++ k);
                          ("Content-Type", "application/json") ];
             body := JObj [ ("createDailyRoom", JBool true) ] |}) ].
Proof.
  intros Hk Hu Nk Nu.
  assert (Tk : truthy (env ctx "PIPECAT_API_KEY") = true)
    by (rewrite Hk; apply truthy_of_nonempty; exact Nk).
  assert (Tu : truthy (env ctx "PIPECAT_API_URL") = true)
    by (rewrite Hu; apply truthy_of_nonempty; exact Nu).
  on_paths ctx w; try congruence;
    replace k0 with k by congruence; replace u0 with u by congruence;
    reflexivity.
Qed.

Lemma C7_witness :
  calls (performed (configured (Resolved created)) [])
  = [ ("https://api.example/start",
       {| method := "POST";
          headers := [ ("Authorization", "Bearer secret");
                       ("Content-Type", "application/json") ];
          body := JObj [ ("createDailyRoom", JBool true) ] |}) ].
Proof.
  apply (C7_single_outbound_request (configured (Resolved created)) []
           "secret" "https://api.example/start").
  - reflexivity.
  - reflexivity.
  - discriminate.
  - discriminate.
Defined.

(** ** The boundary *)

(** A [try] whose [catch] clause cannot throw never throws. *)
Lemma try_catch_total {A : Type} (block : M A) (handler : JsError -> M A) :
  (forall e c w, exists a w', handler e c w = (Normal a, w')) ->
  forall c w, exists a w', try_catch block handler c w = (Normal a, w').
Proof.
  intros Hh c w. unfold try_catch.
  destruct (block c w) as [[a | e] w'].
  - exists a, w'. reflexivity.
  - apply Hh.
Qed.

(** C9: whatever the configuration and whatever the upstream does, [POST]
    completes normally (no exception reaches its caller) and the response
    it returns has status 200 or 500. *)
Theorem C9_total_at_the_boundary (ctx : Ctx) (w : World) :
  exists res,
    response_of ctx w = Normal res
    /\ (res_status res = 200%Z \/ res_status res = 500%Z).
Proof.
  on_paths ctx w; eexists; (split; [reflexivity |]); simpl; auto.
Qed.

(** C8: two invocations with the same configuration values, in which the
    upstream call ended the same way (same response, or same fault),
    return the same response, whatever happened before each of them: the
    worlds they start from play no part. *)
Theorem C8_stateless_and_deterministic (ctx1 ctx2 : Ctx) (w1 w2 : World) :
  env ctx1 "PIPECAT_API_KEY" = env ctx2 "PIPECAT_API_KEY" ->
  env ctx1 "PIPECAT_API_URL" = env ctx2 "PIPECAT_API_URL" ->
  outcomes (performed ctx1 w1) = outcomes (performed ctx2 w2) ->
  response_of ctx1 w1 = response_of ctx2 w2.
Proof.
  intros Hk Hu Hout.
  on_paths ctx1 w1; on_paths ctx2 w2;
    try reflexivity; try discriminate Hout;
    inversion Hout; subst; congruence.
Qed.

(** A second invocation, started from the world the first one left. *)
Lemma C8_witness :
  response_of (configured (Resolved created)) []
  = response_of (configured (Resolved created))
      (snd (POST (configured (Resolved created)) [])).
Proof.
  apply (C8_stateless_and_deterministic
           (configured (Resolved created)) (configured (Resolved created))
           [] (snd (POST (configured (Resolved created)) []))).
  - reflexivity.
  - reflexivity.
  - vm_compute. reflexivity.
Defined.

(** ** The 2xx range *)

(** C10, as stated, fails: the upstream answers 200 with the parsable
    body [null]; reading [data.dailyRoom] throws a [TypeError], the catch
    clause takes over and the handler returns status 500. *)
Lemma C10_counterexample_null_body :
  upstream_outcome (configured (Resolved null_body)) [] (Resolved null_body)
  /\ (200 <= status null_body <= 299)%Z
  /\ json null_body = Normal JNull
  /\ response_of (configured (Resolved null_body)) [] = Normal failure_response
  /\ res_status failure_response <> 200%Z.
Proof.
  split; [vm_compute; left; reflexivity |].
  split; [simpl; lia |].
  split; [reflexivity |].
  split; [reflexivity |].
  simpl. lia.
Qed.

(** C10 (amended): for every upstream response with a status in 200-299
    and a JSON-parsable body other than [null], the handler takes the
    success path and returns status 200, not the upstream's own status:
    the body carries the two fields read from the data and nothing is
    written to the console. *)
Theorem C10_any_2xx_yields_200
  (ctx : Ctx) (w : World) (r : Response) (data : Json) :
  upstream_outcome ctx w (Resolved r) ->
  (200 <= status r <= 299)%Z ->
  json r = Normal data ->
  data <> JNull ->
  response_of ctx w
  = Normal (mkNextResponse 200
      (JObj (serialized [ ("url", property data "dailyRoom");
                          ("token", property data "dailyToken") ])))
  /\ console (performed ctx w) = [].
Proof.
  intros Hout Hst Hjs Hnn.
  apply ok_true_iff in Hst.
  on_paths ctx w; same_call; try congruence.
  split; [| reflexivity].
  replace data0 with data by congruence. reflexivity.
Qed.

Lemma C10_witness :
  response_of (configured (Resolved created_201)) []
  = Normal (mkNextResponse 200
      (JObj (serialized [ ("url", property room_body "dailyRoom");
                          ("token", property room_body "dailyToken") ])))
  /\ console (performed (configured (Resolved created_201)) []) = [].
Proof.
  apply (C10_any_2xx_yields_200 (configured (Resolved created_201)) []
           created_201 room_body).
  - vm_compute. left. reflexivity.
  - simpl. lia.
  - reflexivity.
  - discriminate.
Defined.

(** * Further properties of the handler *)

(** ** The configuration guards *)

(** A configuration value set to the empty string is rejected like an
    unset one: status 500 with the generic body, and no outbound call. *)
Theorem empty_configuration_is_rejected (ctx : Ctx) (w : World) :
  env ctx "PIPECAT_API_KEY" = Some "" \/ env ctx "PIPECAT_API_URL" = Some "" ->
  response_of ctx w = Normal failure_response
  /\ calls (performed ctx w) = [].
Proof.
  intros H.
  on_paths ctx w; try (split; reflexivity); destruct H; congruence.
Qed.

Lemma empty_configuration_is_rejected_witness :
  response_of empty_url [] = Normal failure_response
  /\ calls (performed empty_url []) = [].
Proof.
  apply (empty_configuration_is_rejected empty_url []).
  right. reflexivity.
Defined.

(** The key is checked before the URL: when a guard fires, the one console
    line names [PIPECAT_API_KEY] if the key is missing (whatever the URL
    is), and [PIPECAT_API_URL] only if the key is present. *)
Theorem guard_order_in_log (ctx : Ctx) (w : World) :
  truthy (env ctx "PIPECAT_API_KEY") && truthy (env ctx "PIPECAT_API_URL") = false ->
  console (performed ctx w)
  = [ (log_label,
       Error ((if truthy (env ctx "PIPECAT_API_KEY")
               then "PIPECAT_API_URL" else "PIPECAT_API_KEY")
              ++ " environment variable is required")) ].
Proof.
  intros H.
  on_paths ctx w;
    repeat match goal with
      | E : truthy _ = _ |- _ => rewrite E in *
      | E : env ctx _ = Some _ |- _ => rewrite E in *
      end;
    try reflexivity;
    rewrite !truthy_of_nonempty in H by assumption; discriminate H.
Qed.

Lemma guard_order_in_log_witness :
  console (performed unconfigured [])
  = [ (log_label, Error "PIPECAT_API_KEY environment variable is required") ].
Proof.
  apply (guard_order_in_log unconfigured []).
  reflexivity.
Defined.

(** The handler makes one outbound call when both configuration values
    are non-empty strings and none otherwise; it never makes two. *)
Theorem one_call_iff_configured (ctx : Ctx) (w : World) :
  length (calls (performed ctx w))
  = if truthy (env ctx "PIPECAT_API_KEY") && truthy (env ctx "PIPECAT_API_URL")
    then 1%nat else 0%nat.
Proof.
  on_paths ctx w;
    repeat match goal with
      | E : truthy _ = _ |- _ => rewrite E
      | E : env ctx _ = Some _ |- _ => rewrite E
      end;
    rewrite ?truthy_of_nonempty by assumption; reflexivity.
Qed.

(** ** What reaches the console *)

(** The console tells the two outcomes apart: a 200 response comes with no
    console line, and the 500 response with exactly one, labelled
    [Error calling Pipecat API:]. *)
Theorem console_line_iff_failure (ctx : Ctx) (w : World) :
  exists res,
    response_of ctx w = Normal res
    /\ ((res_status res = 200%Z /\ console (performed ctx w) = [])
        \/ (res = failure_response
            /\ exists e, console (performed ctx w) = [ (log_label, e) ])).
Proof.
  on_paths ctx w; eexists; (split; [reflexivity |]);
    first [ left; split; reflexivity
          | right; split; [reflexivity | eexists; reflexivity] ].
Qed.

(** On a status outside 200-299 whose body can be read, the console line
    carries the upstream status, status text and body, which the response
    withholds. *)
Theorem upstream_error_is_logged_in_full
  (ctx : Ctx) (w : World) (r : Response) (b : string) :
  upstream_outcome ctx w (Resolved r) ->
  ~ (200 <= status r <= 299)%Z ->
  text r = Normal b ->
  console (performed ctx w)
  = [ (log_label,
       Error ("Pipecat API error: " ++ template_int (status r)
              ++ " " ++ statusText r ++ " " ++ b)) ].
Proof.
  intros Hout Hst Htx.
  apply ok_false_iff in Hst.
  on_paths ctx w; same_call; try congruence.
  unfold not_ok_error. rewrite Htx. reflexivity.
Qed.

Lemma upstream_error_is_logged_in_full_witness :
  console (performed (configured (Resolved forbidden)) [])
  = [ (log_label, Error "Pipecat API error: 403 Forbidden forbidden") ].
Proof.
  apply (upstream_error_is_logged_in_full
           (configured (Resolved forbidden)) [] forbidden "forbidden").
  - vm_compute. left. reflexivity.
  - simpl. lia.
  - reflexivity.
Defined.

(** On a status outside 200-299 whose body cannot be read, the fault of
    [response.text()] is what is logged: the descriptive error is never
    built, and the response is the generic 500 all the same. *)
Theorem unreadable_error_body_is_caught
  (ctx : Ctx) (w : World) (r : Response) (e : JsError) :
  upstream_outcome ctx w (Resolved r) ->
  ~ (200 <= status r <= 299)%Z ->
  text r = Throw e ->
  response_of ctx w = Normal failure_response
  /\ console (performed ctx w) = [ (log_label, e) ].
Proof.
  intros Hout Hst Htx.
  apply ok_false_iff in Hst.
  on_paths ctx w; same_call; try congruence.
  unfold not_ok_error. rewrite Htx. split; reflexivity.
Qed.

Lemma unreadable_error_body_is_caught_witness :
  response_of (configured (Resolved unreadable)) [] = Normal failure_response
  /\ console (performed (configured (Resolved unreadable)) [])
     = [ (log_label, TypeError "terminated") ].
Proof.
  apply (unreadable_error_body_is_caught
           (configured (Resolved unreadable)) [] unreadable (TypeError "terminated")).
  - vm_compute. left. reflexivity.
  - simpl. lia.
  - reflexivity.
Defined.

(** A fault thrown by the outbound call is logged as it is, after the one
    call that raised it; nothing is retried. *)
Theorem network_fault_is_logged (ctx : Ctx) (w : World) (e : JsError) :
  upstream_outcome ctx w (Rejected e) ->
  console (performed ctx w) = [ (log_label, e) ]
  /\ length (calls (performed ctx w)) = 1%nat.
Proof.
  intros Hout.
  on_paths ctx w; same_call; split; reflexivity.
Qed.

Lemma network_fault_is_logged_witness :
  console (performed (configured refused) []) = [ (log_label, TypeError "fetch failed") ]
  /\ length (calls (performed (configured refused) [])) = 1%nat.
Proof.
  apply (network_fault_is_logged (configured refused) [] (TypeError "fetch failed")).
  vm_compute. left. reflexivity.
Defined.

(** On a 2xx answer whose body does not parse, the fault of
    [response.json()] is what is logged. *)
Theorem parse_fault_is_logged
  (ctx : Ctx) (w : World) (r : Response) (e : JsError) :
  upstream_outcome ctx w (Resolved r) ->
  (200 <= status r <= 299)%Z ->
  json r = Throw e ->
  console (performed ctx w) = [ (log_label, e) ].
Proof.
  intros Hout Hst Hjs.
  apply ok_true_iff in Hst.
  on_paths ctx w; same_call; congruence.
Qed.

Lemma parse_fault_is_logged_witness :
  console (performed (configured (Resolved garbled)) [])
  = [ (log_label, SyntaxError "Unexpected token '<'") ].
Proof.
  apply (parse_fault_is_logged (configured (Resolved garbled)) [] garbled
           (SyntaxError "Unexpected token '<'")).
  - vm_compute. left. reflexivity.
  - simpl. lia.
  - reflexivity.
Defined.

(** A 2xx answer whose body is the JSON value [null] fails at the first
    property read: generic 500, one call, and a [TypeError] on the
    console. *)
Theorem null_body_is_a_type_error (ctx : Ctx) (w : World) (r : Response) :
  upstream_outcome ctx w (Resolved r) ->
  (200 <= status r <= 299)%Z ->
  json r = Normal JNull ->
  response_of ctx w = Normal failure_response
  /\ length (calls (performed ctx w)) = 1%nat
  /\ exists e, console (performed ctx w) = [ (log_label, e) ]
               /\ err_name e = "TypeError".
Proof.
  intros Hout Hst Hjs.
  apply ok_true_iff in Hst.
  on_paths ctx w; same_call; try congruence.
  split; [reflexivity |]. split; [reflexivity |].
  eexists. split; reflexivity.
Qed.

Lemma null_body_is_a_type_error_witness :
  response_of (configured (Resolved null_body)) [] = Normal failure_response
  /\ length (calls (performed (configured (Resolved null_body)) [])) = 1%nat
  /\ exists e, console (performed (configured (Resolved null_body)) []) = [ (log_label, e) ]
               /\ err_name e = "TypeError".
Proof.
  apply (null_body_is_a_type_error (configured (Resolved null_body)) [] null_body).
  - vm_compute. left. reflexivity.
  - simpl. lia.
  - reflexivity.
Defined.

(** ** What a 200 response means *)

(** The handler answers 200 only after the upstream answered: both
    configuration values were non-empty, the outbound call resolved with a
    status in 200-299, and its body parsed to a value other than [null]. *)
Theorem success_only_from_upstream (ctx : Ctx) (w : World) (res : NextResponse) :
  response_of ctx w = Normal res ->
  res_status res = 200%Z ->
  exists k u r data,
    env ctx "PIPECAT_API_KEY" = Some k /\ k <> ""
    /\ env ctx "PIPECAT_API_URL" = Some u /\ u <> ""
    /\ upstream_outcome ctx w (Resolved r)
    /\ (200 <= status r <= 299)%Z
    /\ json r = Normal data
    /\ data <> JNull.
Proof.
  intros Hres Hst.
  on_paths ctx w;
    match type of Hres with Normal _ = Normal _ => injection Hres as <- end;
    try discriminate Hst.
  exists k, u, r, data.
  repeat (split; [assumption |]).
  split; [left; reflexivity |].
  split; [apply ok_true_iff; assumption |].
  split; assumption.
Qed.

Lemma success_only_from_upstream_witness :
  exists k u r data,
    env (configured (Resolved created_201)) "PIPECAT_API_KEY" = Some k /\ k <> ""
    /\ env (configured (Resolved created_201)) "PIPECAT_API_URL" = Some u /\ u <> ""
    /\ upstream_outcome (configured (Resolved created_201)) [] (Resolved r)
    /\ (200 <= status r <= 299)%Z
    /\ json r = Normal data
    /\ data <> JNull.
Proof.
  apply (success_only_from_upstream (configured (Resolved created_201)) []
           (mkNextResponse 200
              (JObj [ ("url", JStr "https://example.daily.co/room");
                      ("token", JStr "tok-1") ]))).
  - reflexivity.
  - reflexivity.
Defined.

(** A 200 response carries nothing of the upstream body but the two
    fields: its body is an object whose only possible keys are [url] and
    [token]. *)
Theorem success_body_has_only_url_and_token
  (ctx : Ctx) (w : World) (res : NextResponse) :
  response_of ctx w = Normal res ->
  res_status res = 200%Z ->
  exists fields,
    res_body res = JObj fields
    /\ (length fields <= 2)%nat
    /\ forall k v, In (k, v) fields -> k = "url" \/ k = "token".
Proof.
  intros Hres Hst.
  on_paths ctx w;
    match type of Hres with Normal _ = Normal _ => injection Hres as <- end;
    try discriminate Hst.
  eexists. split; [reflexivity |].
  destruct (property data "dailyRoom"), (property data "dailyToken"); simpl;
    (split; [lia |]); intros k' v' Hin;
    repeat match goal with
      | H : _ \/ _ |- _ => destruct H
      | H : (_, _) = (_, _) |- _ => injection H as <- <-
      | H : False |- _ => destruct H
      end; auto.
Qed.

Lemma success_body_has_only_url_and_token_witness :
  exists fields,
    res_body (mkNextResponse 200
                (JObj [ ("url", JObj [ ("name", JStr "lobby") ]);
                        ("token", JStr "tok-2") ])) = JObj fields
    /\ (length fields <= 2)%nat
    /\ forall k v, In (k, v) fields -> k = "url" \/ k = "token".
Proof.
  apply (success_body_has_only_url_and_token (configured (Resolved rich_body)) []).
  - reflexivity.
  - reflexivity.
Defined.

(** The two fields are forwarded whatever else the upstream object holds,
    in whatever order, and whatever the type of their values: nothing is
    validated. *)
Theorem fields_are_forwarded_unvalidated
  (ctx : Ctx) (w : World) (r : Response) (props : list (string * Json))
  (room token : Json) :
  upstream_outcome ctx w (Resolved r) ->
  (200 <= status r <= 299)%Z ->
  json r = Normal (JObj props) ->
  own_property "dailyRoom" props = Some room ->
  own_property "dailyToken" props = Some token ->
  response_of ctx w
  = Normal (mkNextResponse 200
      (JObj [ ("url", JSON_stringify room); ("token", JSON_stringify token) ])).
Proof.
  intros Hout Hst Hjs Hroom Htoken.
  apply ok_true_iff in Hst.
  on_paths ctx w; same_call; try congruence.
  replace data with (JObj props) by congruence.
  simpl property. rewrite Hroom, Htoken. reflexivity.
Qed.

Lemma fields_are_forwarded_unvalidated_witness :
  response_of (configured (Resolved rich_body)) []
  = Normal (mkNextResponse 200
      (JObj [ ("url", JSON_stringify (JObj [ ("name", JStr "lobby") ]));
              ("token", JSON_stringify (JStr "tok-2")) ])).
Proof.
  apply (fields_are_forwarded_unvalidated (configured (Resolved rich_body)) [] rich_body
           [ ("sessionId", JStr "s-42");
             ("dailyToken", JStr "tok-2");
             ("dailyRoom", JObj [ ("name", JStr "lobby") ]);
             ("expires", JBool false) ]).
  - vm_compute. left. reflexivity.
  - simpl. lia.
  - reflexivity.
  - reflexivity.
  - reflexivity.
Defined.

(** A 2xx answer whose body is JSON but neither an object nor [null] (a
    string, a number, a boolean, an array) is accepted: the handler
    answers 200 with an empty object. *)
Theorem non_object_body_yields_empty_success
  (ctx : Ctx) (w : World) (r : Response) (data : Json) :
  upstream_outcome ctx w (Resolved r) ->
  (200 <= status r <= 299)%Z ->
  json r = Normal data ->
  data <> JNull ->
  (forall props, data <> JObj props) ->
  response_of ctx w = Normal (mkNextResponse 200 (JObj [])).
Proof.
  intros Hout Hst Hjs Hnn Hno.
  apply ok_true_iff in Hst.
  on_paths ctx w; same_call; try congruence.
  replace data0 with data by congruence.
  destruct data; try reflexivity.
  exfalso. apply (Hno props). reflexivity.
Qed.

Lemma non_object_body_yields_empty_success_witness :
  response_of (configured (Resolved array_body)) []
  = Normal (mkNextResponse 200 (JObj [])).
Proof.
  apply (non_object_body_yields_empty_success
           (configured (Resolved array_body)) [] array_body (JArr [ JStr "dailyRoom" ])).
  - vm_compute. left. reflexivity.
  - simpl. lia.
  - reflexivity.
  - discriminate.
  - intros props. discriminate.
Defined.

(** ** What the response does not reveal *)

(** The response is fixed by how the outbound call ended, and by nothing
    else: two runs whose calls ended alike (or that made none) return the
    same response even under different API keys and URLs.  The key never
    shows in what the caller receives. *)
Theorem response_depends_on_outcome_only (ctx1 ctx2 : Ctx) (w1 w2 : World) :
  outcomes (performed ctx1 w1) = outcomes (performed ctx2 w2) ->
  response_of ctx1 w1 = response_of ctx2 w2.
Proof.
  intros Hout.
  on_paths ctx1 w1; on_paths ctx2 w2;
    try reflexivity; try discriminate Hout;
    inversion Hout; subst; congruence.
Qed.

Lemma response_depends_on_outcome_only_witness :
  response_of (configured (Resolved created)) []
  = response_of (configured_elsewhere (Resolved created)) [].
Proof.
  apply (response_depends_on_outcome_only
           (configured (Resolved created)) (configured_elsewhere (Resolved created)) [] []).
  vm_compute. reflexivity.
Defined.
